(** * PeeringDB: facility migration 0072 and the API-key test harness

    A shallow embedding of
    - [peeringdb_server/migrations/0072_add_fac_offered_fields.py], the
      declarative schema migration adding three fields to the facility
      model, and
    - [tests/test_api_keys.py], the RDAP override, the [DummyResponse]
      wrapper, the key-authenticating REST client and the [setUp] fixture,
    followed by the properties established about them. *)

From Stdlib Require Import ZArith String Ascii List Bool DecimalString.
From Stdlib Require DecimalPos DecimalZ.
From stdpp Require Import gmap strings list fin_maps.

Local Open Scope string_scope.

(* ===================================================================== *)
(** * Part I: the model                                                   *)
(* ===================================================================== *)

(** ** Python values, truthiness and exceptions *)

Module Py.

(** The exceptions the modelled code can raise. *)
Inductive exn : Type :=
| AssertionError
| AttributeError (name : string)
| DoesNotExist (what : string)
| FileNotFoundError
| RecursionError
| RdapNotFoundError.

(** A call either returns a value or raises. *)
Inductive result (A : Type) : Type :=
| Ok (a : A)
| Raise (e : exn).
Arguments Ok {A} a.
Arguments Raise {A} e.

Definition bind {A B : Type} (r : result A) (k : A -> result B) : result B :=
  match r with
  | Ok a => k a
  | Raise e => Raise e
  end.

(** JSON documents as Python's [json] module produces them (integers
    only; no claim inspects floating-point numbers). *)
#[local] Unset Elimination Schemes.
Inductive json_value : Type :=
| JNull
| JBool (b : bool)
| JInt (z : Z)
| JStr (s : string)
| JList (l : list json_value)
| JDict (l : list (string * json_value)).
#[local] Set Elimination Schemes.

(** [bool(s)] for a string: only the empty string is falsy. *)
Definition truthy_str (s : string) : bool :=
  negb (String.eqb s "").

(** [bool(x)] for [x] that is [None] or a string. *)
Definition truthy_opt_str (o : option string) : bool :=
  match o with
  | None => false
  | Some s => truthy_str s
  end.

(** [bool(n)] for an integer: only zero is falsy. *)
Definition truthy_int (z : Z) : bool :=
  negb (Z.eqb z 0).

(** [bool(d)] for [d] that is [None] or a dict: [None] and the empty
    dict are falsy. *)
Definition truthy_opt_dict {V : Type} (o : option (gmap string V)) : bool :=
  match o with
  | None => false
  | Some d => negb (bool_decide (d = ∅))
  end.

(** [str(n)], as an f-string renders an integer. *)
Definition str_of_int (z : Z) : string :=
  NilZero.string_of_int (Z.to_int z).

(** [c.lower()] on one ASCII character. *)
Definition lower_ascii (c : ascii) : ascii :=
  let n := nat_of_ascii c in
  if (Nat.leb 65 n && Nat.leb n 90)%bool then ascii_of_nat (n + 32) else c.

(** [s.lower()] on ASCII strings. *)
Fixpoint lower (s : string) : string :=
  match s with
  | EmptyString => EmptyString
  | String c s' => String (lower_ascii c) (lower s')
  end.

(** [list(range(start, stop))]. *)
Definition range (start stop : Z) : list Z :=
  map (fun i : nat => (start + Z.of_nat i)%Z)
      (seq 0 (Z.to_nat (stop - start))).

End Py.

(** Sequencing of calls that may raise, written [x ← call; rest]. *)
#[global] Instance result_bind : MBind Py.result :=
fun A B k r => Py.bind r k.

(** ** Migration 0072: fields offered by a facility *)

Module Migration0072.

(** The two Django field classes the migration instantiates. *)
Inductive FieldClass : Type :=
| PositiveIntegerField
| CharField.

(** A field's [default=] argument. *)
Inductive DefaultValue : Type :=
| DefaultNone
| DefaultStr (s : string).

(** The keyword arguments of a field constructor.  Arguments a
    constructor call leaves out carry Django's defaults: [null=False],
    no [choices], no [max_length], empty [help_text]. *)
Record Field : Type := {
  field_class : FieldClass;
  blank : bool;
  null : bool;
  choices : option (list (string * string));
  default : DefaultValue;
  help_text : string;
  max_length : option nat;
  verbose_name : string
}.

(** Migration operations; the migration at hand uses [AddField] only. *)
Inductive Operation : Type :=
| AddField (model_name name : string) (field : Field)
| AlterField (model_name name : string) (field : Field)
| RemoveField (model_name name : string).

Definition dependencies : list (string * string) :=
  [("peeringdb_server", "0071_populate_obj_counts")].






Definition op_field_name (op : Operation) : string :=
  match op with
  | AddField _ n _ | AlterField _ n _ | RemoveField _ n => n
  end.












End Migration0072.

(** ** The RDAP lookup class of [peeringdb_server.inet], as the tests see it *)

Module Inet.

(** [pdbinet.RdapAsn(data)]: an RDAP answer wrapping a JSON document. *)
Inductive RdapAsn : Type :=
| MkRdapAsn (data : Py.json_value).

(** Function objects that can be bound to [RdapLookup.get_asn]: one of
    the library's own implementations, or the closure that
    [setup_module] of the test module creates. *)
Inductive FunObj : Type :=
| LibraryFun (n : nat)
| TestOverride.

(** The attributes of the class [RdapLookup] that the test module reads
    and writes.  [override_result] is absent until something sets it. *)
Record RdapLookup : Type := {
  get_asn : FunObj;
  override_result : option Py.json_value
}.

(** A sample bogon test, used to exercise the statements below: the
    private-use ASN ranges 64512-65534 and 4200000000-4294967294. *)
Definition private_use_asn (asn : Z) : bool :=
  ((64512 <=? asn) && (asn <=? 65534)
   || (4200000000 <=? asn) && (asn <=? 4294967294))%Z.

End Inet.

(** ** [tests/test_api_keys.py]: module-level code *)

Module TestModule.
Import Py Inet.

(** Line 18: [RdapLookup_get_asn = pdbinet.RdapLookup.get_asn], run when
    the test module is imported. *)
Definition RdapLookup_get_asn (cls : RdapLookup) : FunObj :=
  get_asn cls.

Definition ASN_RANGE_OVERRIDE : list Z := range 9000000 9000999.

Section GetAsn.
(** [pdbinet.asn_is_bogon], defined outside the sources at hand. *)
Variable asn_is_bogon : Z -> bool.
(** What the function saved in [RdapLookup_get_asn] does when called. *)
Variable saved_get_asn : Z -> result RdapAsn.

(** The closure [get_asn] defined inside [setup_module];
    [self_override_result] is what [self.override_result] evaluates
    to at the time of the call. *)
Definition get_asn_override (self_override_result : option json_value) (asn : Z)
  : result RdapAsn :=
  if bool_decide (asn ∈ ASN_RANGE_OVERRIDE) then
    match self_override_result with
    | Some j => Ok (MkRdapAsn j)
    | None => Raise (AttributeError "override_result")
    end
  else if asn_is_bogon asn then
    saved_get_asn asn
  else
    Raise RdapNotFoundError.
End GetAsn.

(** [setup_module]; [fixture] is the outcome of opening
    [data/api/rdap_override.json] and decoding it. *)
Definition setup_module (fixture : result json_value) (cls : RdapLookup)
  : result RdapLookup :=
  j ← fixture;
  Ok {| get_asn := TestOverride; override_result := Some j |}.

(** [teardown_module]; [saved] is the module global
    [RdapLookup_get_asn]. *)
Definition teardown_module (saved : FunObj) (cls : RdapLookup) : RdapLookup :=
  {| get_asn := saved; override_result := override_result cls |}.

(** The whole life cycle: import, set up, tear down. *)
Definition import_setup_teardown (fixture : result json_value) (cls : RdapLookup)
  : result RdapLookup :=
  let saved := RdapLookup_get_asn cls in
  cls' ← setup_module fixture cls;
  Ok (teardown_module saved cls').

End TestModule.

(** ** [DummyResponse] *)

Module DummyResponse.
Import Py.

Record t : Type := {
  status_code : Z;
  content : string;
  headers : gmap string string
}.

(** [__init__(self, status_code, content, headers={})]. *)
Definition __init__ (status_code : Z) (content : string)
    (headers : gmap string string) : t :=
  {| status_code := status_code; content := content; headers := headers |}.

(** The constructor called without [headers]. *)
Definition init_default (status_code : Z) (content : string) : t :=
  __init__ status_code content ∅.

Section WithJson.
(** [json.loads] of the Python standard library. *)
Variable json_loads : string -> result json_value.

(** The [data] property. *)
Definition data (self : t) : result json_value :=
  json_loads (content self).

(** [json(self)]. *)
Definition json (self : t) : result json_value :=
  data self.
End WithJson.

(** [read(self, *args, **kwargs)]: the arguments are ignored. *)
Definition read (self : t) (args : list json_value) : string :=
  content self.


End DummyResponse.

(** ** Database rows the harness touches *)

Module Models.
Import Py.

(** A grainy permission row: a namespace and a bitmask. *)
Record Permission : Type := {
  namespace : string;
  permission : Z
}.

Record User : Type := {
  username : string;
  user_permissions : list Permission
}.

Record Group : Type := {
  group_name : string;
  grainy_permissions : list Permission
}.

Record Organization : Type := {
  org_name : string;
  admin_usergroup : Group;
  usergroup : Group
}.

Record UserAPIKey : Type := {
  uak_name : string;
  uak_user : string;
  uak_key : string
}.

Record OrganizationAPIKey : Type := {
  oak_name : string;
  oak_org : string;
  oak_email : string;
  oak_key : string;
  oak_permissions : list Permission
}.

(** The tables: users by username, organizations by name, and the API
    keys in order of creation. *)
Record DB : Type := {
  users : gmap string User;
  organizations : gmap string Organization;
  user_api_keys : list UserAPIKey;
  org_api_keys : list OrganizationAPIKey
}.

(** [models.User.objects.get(username=name)]. *)
Definition User_get (tbl : gmap string User) (name : string) : result User :=
  match tbl !! name with
  | Some u => Ok u
  | None => Raise (DoesNotExist "User")
  end.

(** [models.Organization.objects.get(name=name)]. *)
Definition Organization_get (db : DB) (name : string) : result Organization :=
  match organizations db !! name with
  | Some o => Ok o
  | None => Raise (DoesNotExist "Organization")
  end.

Section Keys.
(** The secret handed out for the n-th key created. *)
Variable generate_key : nat -> string.

Definition keys_created (db : DB) : nat :=
  (length (user_api_keys db) + length (org_api_keys db))%nat.

(** [models.UserAPIKey.objects.create_key(user=..., name=...)]: the
    new row's position and the secret. *)
Definition UserAPIKey_create_key (db : DB) (user : User) (name : string)
  : nat * string * DB :=
  let secret := generate_key (keys_created db) in
  let row := {| uak_name := name; uak_user := username user;
                uak_key := secret |} in
  (length (user_api_keys db), secret,
   {| users := users db; organizations := organizations db;
      user_api_keys := user_api_keys db ++ [row];
      org_api_keys := org_api_keys db |}).

(** Modelled from the spec: [models.OrganizationAPIKey] is defined
    outside the sources at hand; per the glossary an API key bears its
    own permission set, so a key just created holds no permission. *)
Definition OrganizationAPIKey_create_key (db : DB) (name : string)
    (org : Organization) (email : string) : nat * string * DB :=
  let secret := generate_key (keys_created db) in
  let row := {| oak_name := name; oak_org := org_name org;
                oak_email := email; oak_key := secret;
                oak_permissions := [] |} in
  (length (org_api_keys db), secret,
   {| users := users db; organizations := organizations db;
      user_api_keys := user_api_keys db;
      org_api_keys := org_api_keys db ++ [row] |}).
End Keys.

(** [add_permission(namespace, permission)] of the permission manager
    (django_grainy, a library) on one key's rows: the row of that
    namespace is updated if there is one, and a row is created after the
    others if not. *)
Fixpoint add_permission (rows : list Permission) (ns : string) (perm : Z)
  : list Permission :=
  match rows with
  | [] => [{| namespace := ns; permission := perm |}]
  | r :: rows' =>
      if String.eqb (namespace r) ns
      then {| namespace := ns; permission := perm |} :: rows'
      else r :: add_permission rows' ns perm
  end.

(** A key with its permission rows replaced. *)
Definition set_permissions (row : OrganizationAPIKey)
    (rows : list Permission) : OrganizationAPIKey :=
  {| oak_name := oak_name row; oak_org := oak_org row;
     oak_email := oak_email row; oak_key := oak_key row;
     oak_permissions := rows |}.

(** [api_key.grainy_permissions.add_permission(ns, perm)] for the
    organization key at position [k]. *)
Definition key_add_permission (db : DB) (k : nat) (ns : string) (perm : Z) : DB :=
  {| users := users db; organizations := organizations db;
     user_api_keys := user_api_keys db;
     org_api_keys :=
       alter (fun row =>
                set_permissions row
                  (add_permission (oak_permissions row) ns perm))
             k (org_api_keys db) |}.

(** [api_key.grainy_permissions.all()] for the organization key at
    position [k]. *)
Definition key_permissions (db : DB) (k : nat) : option (list Permission) :=
  oak_permissions <$> (org_api_keys db !! k).

End Models.

(** ** [DummyRestClientWithKeyAuth] *)

Module Client.
Import Py Models.

(** The keyword arguments the harness passes to the client. *)
Record Kwargs : Type := {
  kw_user : option string;
  kw_password : option string;
  kw_verbose : bool;
  kw_key : option string;
  kw_useragent : option string
}.

(** rest_framework's [APIClient], as far as the harness uses it: the
    extra request headers set by [credentials] and the user set by
    [force_authenticate]. *)
Record APIClient : Type := {
  _credentials : gmap string string;
  _force_user : option User
}.

(** [APIClient()]. *)
Definition APIClient_new : APIClient :=
  {| _credentials := ∅; _force_user := None |}.

(** [api_client.credentials] called with keyword arguments [kwargs]. *)
Definition credentials (c : APIClient) (kwargs : gmap string string) : APIClient :=
  {| _credentials := kwargs; _force_user := _force_user c |}.

(** [api_client.force_authenticate(user)]. *)
Definition force_authenticate (c : APIClient) (user : User) : APIClient :=
  {| _credentials := _credentials c; _force_user := Some user |}.

Record t : Type := {
  url : string;
  user : option string;
  password : option string;
  verbose : bool;
  useragent : option string;
  user_inst : User;
  key : option string;
  api_client : APIClient
}.

(** [__init__(self, *args, **kwargs)].  The base class [RestClient]
    (twentyc.rpc) keeps the url and copies the [user], [password] and
    [verbose] keyword arguments onto the instance. *)
Definition __init__ (tbl : gmap string User) (url : string) (kwargs : Kwargs)
  : result t :=
  let self_user := kw_user kwargs in
  let api_client := APIClient_new in
  let self_useragent := kw_useragent kwargs in
  user_inst ←
    (if truthy_opt_str self_user
     then User_get tbl (default "" self_user)
     else User_get tbl "guest");
  match kw_key kwargs with
  | Some k =>
      Ok {| url := url; user := self_user; password := kw_password kwargs;
            verbose := kw_verbose kwargs; useragent := self_useragent;
            user_inst := user_inst; key := Some k;
            api_client :=
              credentials api_client
                {[ "HTTP_AUTHORIZATION" := "Api-Key " +:+ k ]} |}
  | None =>
      Ok {| url := url; user := self_user; password := kw_password kwargs;
            verbose := kw_verbose kwargs; useragent := self_useragent;
            user_inst := user_inst; key := None;
            api_client := force_authenticate api_client user_inst |}
  end.

(** The request methods of [APIClient]. *)
Inductive Verb : Type :=
| GET | POST | PUT | PATCH | DELETE | HEAD | OPTIONS | TRACE.

(** [getattr(self.api_client, name)] for the request methods; any other
    name is not a request method and the call fails. *)
Definition getattr_api_client (name : string) : result Verb :=
  if String.eqb name "get" then Ok GET
  else if String.eqb name "post" then Ok POST
  else if String.eqb name "put" then Ok PUT
  else if String.eqb name "patch" then Ok PATCH
  else if String.eqb name "delete" then Ok DELETE
  else if String.eqb name "head" then Ok HEAD
  else if String.eqb name "options" then Ok OPTIONS
  else if String.eqb name "trace" then Ok TRACE
  else Raise (AttributeError name).

(** What one call of a request method hands to the API. *)
Record Request : Type := {
  rq_verb : Verb;
  rq_path : string;
  rq_data : gmap string json_value;
  rq_format : string;
  rq_extra : gmap string string;
  rq_force_user : option User
}.

(** The attributes of the response that [_request] reads. *)
Record HttpResponse : Type := {
  res_status_code : Z;
  res_content : string;
  res_charset : string
}.

(** The default of [_request]'s [id] parameter. *)
Definition default_id : Z := 0.

(** Lines 105-109 of [_request]: the path requested. *)
Definition request_url (typ : string) (id : Z) (url : option string) : string :=
  if negb (truthy_opt_str url) then
    if truthy_int id
    then "/api/" +:+ typ +:+ "/" +:+ str_of_int id
    else "/api/" +:+ typ
  else default "" url.

(** [d.update] called with the entries of [p] as keyword arguments:
    they are written into [d]. *)
Definition dict_update {V : Type} (d p : gmap string V) : gmap string V :=
  p ∪ d.

(** Lines 112-115 of [_request]: the body sent. *)
Definition request_data (data params : option (gmap string json_value))
  : gmap string json_value :=
  let data := if negb (truthy_opt_dict data) then ∅ else default ∅ data in
  if truthy_opt_dict params
  then dict_update data (default ∅ params)
  else data.

(** Line 117: the arguments of the call
    [fnc(url, data, format="json", **self.api_client._credentials)]. *)
Definition call_args (self : t) (fnc : Verb) (url : string)
    (data : gmap string json_value) : Request :=
  {| rq_verb := fnc; rq_path := url; rq_data := data;
     rq_format := "json";
     rq_extra := _credentials (api_client self);
     rq_force_user := _force_user (api_client self) |}.

Section Request.
(** The API behind the test client's request methods. *)
Variable api : Request -> HttpResponse.

(** [_request(self, typ, id=0, method="GET", params=None, data=None,
    url=None)]. *)
Definition _request (self : t) (typ : string) (id : Z) (method : string)
    (params data : option (gmap string json_value)) (url : option string)
  : result DummyResponse.t :=
  let url := request_url typ id url in
  fnc ← getattr_api_client (lower method);
  let data := request_data data params in
  let res := api (call_args self fnc url data) in
  if String.eqb (res_charset res) "utf-8"
  then Ok (DummyResponse.init_default (res_status_code res) (res_content res))
  else Raise AssertionError.
End Request.


(** The two ways a client can be authenticated. *)
Definition key_auth (self : t) : bool :=
  bool_decide (is_Some (_credentials (api_client self) !! "HTTP_AUTHORIZATION")).

Definition session_auth (self : t) : bool :=
  bool_decide (is_Some (_force_user (api_client self))).

End Client.

(** ** [APITests.setUp] *)

Module APITests.
Import Py Models.

Definition VERBOSE : bool := false.

Definition USER : option string * option string :=
  (Some "api_test", Some "89c8ec05-b897").
Definition USER_ORG_ADMIN : option string * option string :=
  (Some "api_test_org_admin", Some "89c8ec05-b897").
Definition USER_ORG_MEMBER : option string * option string :=
  (Some "api_test_org_member", Some "89c8ec05-b897").

(** [self.rest_client(URL, verbose=VERBOSE, key=key, **credentials)]. *)
Definition rest_client (db : DB) (URL : string) (key : string)
    (credentials : option string * option string) : result Client.t :=
  Client.__init__ (users db) URL
    {| Client.kw_user := fst credentials;
       Client.kw_password := snd credentials;
       Client.kw_verbose := VERBOSE;
       Client.kw_key := Some key;
       Client.kw_useragent := None |}.

(** The loops of lines 220-223 and 236-237: every permission row of the
    group is handed to the key's [add_permission]. *)
Definition transfer_permissions (db : DB) (api_key : nat)
    (perms : list Permission) : DB :=
  fold_left
    (fun db perm =>
       key_add_permission db api_key (namespace perm) (permission perm))
    perms db.

(** The same loops, seen on the rows of the one key they write to. *)
Definition transfer_rows (perms rows : list Permission) : list Permission :=
  fold_left
    (fun rows perm => add_permission rows (namespace perm) (permission perm))
    perms rows.

(** What [setUp] leaves on the test case, together with the two
    organization keys it created. *)
Record Fixture : Type := {
  db_user : Client.t;
  db_org_admin : Client.t;
  db_org_member : Client.t;
  rw_api_key : nat;
  r_api_key : nat
}.

Section SetUp.
(** [settings.API_URL]. *)
Variable URL : string.
Variable generate_key : nat -> string.

Definition setUp (db : DB) : result (DB * Fixture) :=
  (* db_user becomes the tester for user key *)
  api_test_user ← User_get (users db) (default "" (fst USER));
  let '(api_key, user_key, db) :=
    UserAPIKey_create_key generate_key db api_test_user "User api key" in
  db_user ← rest_client db URL user_key USER;
  (* db_org_admin becomes the tester for rw org api key *)
  rw_org ← Organization_get db "API Test Organization RW";
  let '(rw_api_key, rw_org_key, db) :=
    OrganizationAPIKey_create_key generate_key db "test key" rw_org
      "test@localhost" in
  (* Transfer group permissions to org key *)
  let db :=
    transfer_permissions db rw_api_key
      (grainy_permissions (admin_usergroup rw_org)) in
  db_org_admin ← rest_client db URL rw_org_key USER_ORG_ADMIN;
  (* db_org_member becomes the tester for r org api key *)
  r_org ← Organization_get db "API Test Organization R";
  let '(r_api_key, r_org_key, db) :=
    OrganizationAPIKey_create_key generate_key db "test key" r_org
      "test@localhost" in
  (* Transfer group permissions to org key *)
  let db :=
    transfer_permissions db r_api_key
      (grainy_permissions (usergroup r_org)) in
  db_org_member ← rest_client db URL r_org_key USER_ORG_MEMBER;
  Ok (db, {| db_user := db_user; db_org_admin := db_org_admin;
             db_org_member := db_org_member;
             rw_api_key := rw_api_key; r_api_key := r_api_key |}).
End SetUp.

(** A database to run [setUp] on: the three test users, the guest and
    the two test organizations with sample group permissions. *)
Definition perm (ns : string) (p : Z) : Permission :=
  {| namespace := ns; permission := p |}.

Definition sample_db : DB := {|
  users := list_to_map [
    ("guest", {| username := "guest"; user_permissions := [] |});
    ("api_test", {| username := "api_test";
                    user_permissions := [perm "peeringdb.organization" 1] |});
    ("api_test_org_admin",
      {| username := "api_test_org_admin"; user_permissions := [] |});
    ("api_test_org_member",
      {| username := "api_test_org_member"; user_permissions := [] |})
  ];
  organizations := list_to_map [
    ("API Test Organization RW",
      {| org_name := "API Test Organization RW";
         admin_usergroup :=
           {| group_name := "org.1.admin";
              grainy_permissions := [
                perm "peeringdb.organization.1" 15;
                perm "peeringdb.manage_organization.1" 15;
                perm "peeringdb.organization.1.network.?.poc_set.private" 15
              ] |};
         usergroup :=
           {| group_name := "org.1";
              grainy_permissions := [perm "peeringdb.organization.1" 1] |} |});
    ("API Test Organization R",
      {| org_name := "API Test Organization R";
         admin_usergroup :=
           {| group_name := "org.2.admin";
              grainy_permissions := [perm "peeringdb.organization.2" 15] |};
         usergroup :=
           {| group_name := "org.2";
              grainy_permissions := [
                perm "peeringdb.organization.2" 1;
                perm "peeringdb.organization.2.network.?.poc_set.private" 1
              ] |} |})
  ];
  user_api_keys := [];
  org_api_keys := []
|}.

(** A sample key generator for the same purpose. *)
Definition sample_generate_key (n : nat) : string :=
  "key" +:+ str_of_int (Z.of_nat n).

(** A client that authenticates with [secret] on behalf of the user
    [name], whose row is [who]. *)
Definition keyed_client (c : Client.t) (name : string) (who : User)
    (secret : string) : Prop :=
  Client.user c = Some name
  /\ Client.user_inst c = who
  /\ Client.key c = Some secret
  /\ Client._credentials (Client.api_client c) =
       {[ "HTTP_AUTHORIZATION" := "Api-Key " +:+ secret ]}
  /\ Client._force_user (Client.api_client c) = None.

(** [Group.objects.create(name=name)]: a group without permission rows. *)
Definition Group_create (name : string) : Group :=
  {| group_name := name; grainy_permissions := [] |}.

(** [GroupPermission.objects.create(group=g, namespace=ns, permission=p)]:
    one more row of the group, after the others. *)
Definition GroupPermission_create (g : Group) (ns : string) (p : Z) : Group :=
  {| group_name := group_name g;
     grainy_permissions :=
       grainy_permissions g ++ [{| namespace := ns; permission := p |}] |}.

(** What lines 153-198 of [setUpTestData] create: the two groups, the
    guest user and the members of the guest group. *)
Record TestData : Type := {
  guest_group : Group;
  user_group : Group;
  guest_user : User;
  guest_group_user_set : list User
}.

Section SetUpTestData.
(** [settings.SUGGEST_ENTITY_ORG], an organization id. *)
Variable SUGGEST_ENTITY_ORG : Z.

(** [setUpTestData], up to the call of [cls.prepare()], which is defined
    with the API test command. *)
Definition setUpTestData_groups : TestData :=
  (* create user and guest group *)
  let guest_group := Group_create "guest" in
  let user_group := Group_create "user" in
  let guest_user := {| username := "guest"; user_permissions := [] |} in
  let guest_group_user_set := [guest_user] in
  let guest_group :=
    GroupPermission_create guest_group "peeringdb.organization" 1 in
  let guest_group :=
    GroupPermission_create guest_group
      "peeringdb.organization.*.internetexchange.*.ixf_ixp_member_list_url.public"
      1 in
  let user_group :=
    GroupPermission_create user_group "peeringdb.organization" 1 in
  let user_group :=
    GroupPermission_create user_group
      ("peeringdb.organization." +:+ str_of_int SUGGEST_ENTITY_ORG) 4 in
  let user_group :=
    GroupPermission_create user_group
      "peeringdb.organization.*.network.*.poc_set.users" 1 in
  let user_group :=
    GroupPermission_create user_group
      "peeringdb.organization.*.internetexchange.*.ixf_ixp_member_list_url.public"
      1 in
  let user_group :=
    GroupPermission_create user_group
      "peeringdb.organization.*.internetexchange.*.ixf_ixp_member_list_url.users"
      1 in
  {| guest_group := guest_group; user_group := user_group;
     guest_user := guest_user;
     guest_group_user_set := guest_group_user_set |}.
End SetUpTestData.

End APITests.

(* ===================================================================== *)
(** * Part II: properties                                                 *)
(* ===================================================================== *)

(** ** Helper lemmas *)

Lemma range_spec (start stop x : Z) :
x ∈ Py.range start stop <-> (start <= x < stop)%Z.
Proof.
unfold Py.range. rewrite list_elem_of_In, in_map_iff. split.
- intros (i & <- & Hi). apply in_seq in Hi. lia.
- intros Hx. exists (Z.to_nat (x - start)). split; [lia |].
  apply in_seq. lia.
Qed.

(** ** The migration *)

Section MigrationProperties.
Import Migration0072.





End MigrationProperties.

(** ** The RDAP override *)

Section RdapProperties.
Import Py Inet TestModule.

(** The override list holds the integers 9000000 to 9000998. *)
Lemma ASN_RANGE_OVERRIDE_spec (asn : Z) :
  asn ∈ ASN_RANGE_OVERRIDE <-> (9000000 <= asn <= 9000998)%Z.
Proof. unfold ASN_RANGE_OVERRIDE. rewrite range_spec. lia. Qed.

(** With a fixture that loads, [setup_module] returns. *)
Lemma setup_module_loaded (j : json_value) (cls : RdapLookup) :
  setup_module (Ok j) cls =
  Ok {| get_asn := TestOverride; override_result := Some j |}.
Proof. reflexivity. Qed.

(** Without one, it raises and patches nothing. *)
Lemma setup_module_raises (e : exn) (cls : RdapLookup) :
  setup_module (Raise e) cls = Raise e.
Proof. reflexivity. Qed.

(** C8: once [setup_module] has run, [RdapLookup.get_asn] is the
    override, which answers with the RDAP object of the loaded document
    for every ASN from 9000000 to 9000998, hands every bogon ASN outside
    that range to the saved implementation and raises
    [RdapNotFoundError] for every other ASN; 9000999 is outside the
    range, so it raises for it unless it is a bogon. *)
Theorem get_asn_override_cases
    (asn_is_bogon : Z -> bool) (saved : Z -> result RdapAsn)
    (fixture : result json_value) (cls cls' : RdapLookup) (asn : Z) :
  setup_module fixture cls = Ok cls' ->
  exists j,
    fixture = Ok j
    /\ get_asn cls' = TestOverride
    /\ get_asn_override asn_is_bogon saved (override_result cls') asn =
         (if ((9000000 <=? asn) && (asn <=? 9000998))%Z
          then Ok (MkRdapAsn j)
          else if asn_is_bogon asn then saved asn
               else Raise RdapNotFoundError)
    /\ (asn_is_bogon 9000999%Z = false ->
        get_asn_override asn_is_bogon saved (override_result cls') 9000999 =
          Raise RdapNotFoundError).
Proof.
  intros Hsetup. destruct fixture as [j | e]; [| discriminate Hsetup].
  rewrite setup_module_loaded in Hsetup. injection Hsetup as <-.
  exists j. split; [reflexivity |]. split; [reflexivity |].
  unfold get_asn_override; cbn [override_result]. split.
  - destruct (bool_decide_reflect (asn ∈ ASN_RANGE_OVERRIDE)) as [Hin | Hout];
      rewrite ASN_RANGE_OVERRIDE_spec in *.
    + replace ((9000000 <=? asn) && (asn <=? 9000998))%Z with true
        by (symmetry; apply andb_true_iff; split; apply Z.leb_le; lia).
      reflexivity.
    + replace ((9000000 <=? asn) && (asn <=? 9000998))%Z with false;
        [reflexivity |].
      symmetry. apply andb_false_iff.
      destruct (Z.leb_spec 9000000 asn); [right | left; reflexivity].
      apply Z.leb_gt. lia.
  - intros Hbogon.
    destruct (bool_decide_reflect (9000999%Z ∈ ASN_RANGE_OVERRIDE)) as [Hin | _].
    + apply ASN_RANGE_OVERRIDE_spec in Hin. lia.
    + rewrite Hbogon. reflexivity.
Qed.

(** The statement of C8 at work: set up with a loaded document, the
    override raises for 9000999, which is no private-use ASN. *)
Lemma get_asn_override_cases_witness :
  get_asn_override private_use_asn (fun _ => Raise RecursionError)
    (Some (JDict [("handle", JStr "AS9000999")])) 9000999 =
  Raise RdapNotFoundError.
Proof.
  destruct (get_asn_override_cases private_use_asn
              (fun _ => Raise RecursionError)
              (Ok (JDict [("handle", JStr "AS9000999")]))
              {| get_asn := LibraryFun 0; override_result := None |}
              _ 9000999 eq_refl) as (j & _ & _ & _ & H).
  apply H. reflexivity.
Defined.

(** C9, as worded, fails: after set-up and tear-down the class is not
    what it was, for [override_result] stays set. *)
Lemma setup_teardown_leaves_override_result :
  import_setup_teardown (Ok (JDict []))
    {| get_asn := LibraryFun 0; override_result := None |}
  <> Ok {| get_asn := LibraryFun 0; override_result := None |}.
Proof. intros H. discriminate H. Qed.

(** C9, amended: tear-down rebinds [RdapLookup.get_asn] to the function
    saved when the test module was imported, which is the function
    bound before set-up when the module is imported right before it;
    the attribute [override_result] set by [setup_module] keeps the
    loaded document. *)
Theorem teardown_restores_get_asn
    (j : json_value) (saved : FunObj) (cls : RdapLookup) :
  exists cls',
    setup_module (Ok j) cls = Ok cls'
    /\ get_asn cls' = TestOverride
    /\ get_asn (teardown_module saved cls') = saved
    /\ override_result (teardown_module saved cls') = Some j
    /\ import_setup_teardown (Ok j) cls =
         Ok {| get_asn := get_asn cls; override_result := Some j |}.
Proof.
  eexists. split; [apply setup_module_loaded |]. repeat split.
Qed.

End RdapProperties.

(** ** [DummyResponse] *)

Section DummyResponseProperties.
Import Py DummyResponse.

(** C7: on a response built from a status code and a content, [json()]
    and [data] both give [json.loads] of the content, [read()] gives the
    content and [status_code] the status code. *)
Theorem DummyResponse_accessors
    (json_loads : string -> result json_value)
    (status : Z) (body : string) (hdrs : gmap string string)
    (args : list json_value) :
  let r := __init__ status body hdrs in
  json json_loads r = json_loads body
  /\ data json_loads r = json_loads body
  /\ read r args = body
  /\ status_code r = status
  /\ init_default status body = __init__ status body ∅.
Proof. repeat split. Qed.

End DummyResponseProperties.

(** ** The REST client *)

Section ClientProperties.
Import Py Models Client.

(** [_request], with the pieces it is made of. *)
Lemma _request_eq (api : Request -> HttpResponse) (self : t)
    (typ : string) (id : Z) (method : string)
    (params data : option (gmap string json_value)) (u : option string) :
  _request api self typ id method params data u =
  fnc ← getattr_api_client (lower method);
  let res := api (call_args self fnc (request_url typ id u)
                            (request_data data params)) in
  if String.eqb (res_charset res) "utf-8"
  then Ok (DummyResponse.init_default (res_status_code res) (res_content res))
  else Raise AssertionError.
Proof. reflexivity. Qed.

(** C3: if the user to set the client up with exists (the one named
    by a non-empty [user] argument, the guest otherwise), [__init__]
    returns a client; given a key, the client's credentials are the one
    header [Api-Key] followed by the key, which every request carries,
    and no user is forced; given none, the credentials are empty and the
    user found is forced.  Either way exactly one of the two is set. *)
Theorem client_authentication
    (tbl : gmap string User) (base : string) (kwargs : Kwargs)
    (who : User) :
  tbl !! (match kw_user kwargs with
          | Some name => if String.eqb name "" then "guest" else name
          | None => "guest"
          end) = Some who ->
  exists self,
    __init__ tbl base kwargs = Ok self
    /\ user_inst self = who
    /\ match kw_key kwargs with
       | Some k =>
           key self = Some k
           /\ _credentials (api_client self) =
                {[ "HTTP_AUTHORIZATION" := "Api-Key " +:+ k ]}
           /\ _force_user (api_client self) = None
           /\ (forall fnc path body,
                 rq_extra (call_args self fnc path body) !! "HTTP_AUTHORIZATION"
                   = Some ("Api-Key " +:+ k)
                 /\ rq_force_user (call_args self fnc path body) = None)
       | None =>
           key self = None
           /\ _credentials (api_client self) = ∅
           /\ _force_user (api_client self) = Some who
           /\ (forall fnc path body,
                 rq_extra (call_args self fnc path body) = ∅
                 /\ rq_force_user (call_args self fnc path body) = Some who)
       end
    /\ xorb (key_auth self) (session_auth self) = true.
Proof.
  intros Hwho. unfold __init__.
  assert (Hget :
    (if truthy_opt_str (kw_user kwargs)
     then User_get tbl (default "" (kw_user kwargs))
     else User_get tbl "guest") = Ok who).
  { unfold User_get, truthy_opt_str, truthy_str. revert Hwho.
    destruct (kw_user kwargs) as [name |]; cbn -[String.eqb].
    - destruct (String.eqb name ""); cbn [negb]; intros ->; reflexivity.
    - intros ->. reflexivity. }
  rewrite Hget. cbn [mbind result_bind bind].
  destruct (kw_key kwargs) as [k |]; eexists; (split; [reflexivity |]).
  - split; [reflexivity |]. split.
    + repeat split.
    + unfold key_auth, session_auth, credentials, force_authenticate,
        APIClient_new; cbn [api_client _credentials _force_user].
      rewrite bool_decide_eq_true_2 by (rewrite lookup_singleton_eq; eauto).
      rewrite bool_decide_eq_false_2 by (intros [? ?]; discriminate).
      reflexivity.
  - split; [reflexivity |]. split.
    + repeat split.
    + unfold key_auth, session_auth, credentials, force_authenticate,
        APIClient_new; cbn [api_client _credentials _force_user].
      rewrite bool_decide_eq_false_2
        by (rewrite lookup_empty; intros [? ?]; discriminate).
      rewrite bool_decide_eq_true_2 by eauto.
      reflexivity.
Qed.

(** The statement of C3 at work: a client for the user api_test with the
    key abc.def. *)
Lemma client_authentication_witness :
  exists self,
    __init__ (users APITests.sample_db) "http://localhost"
      {| kw_user := Some "api_test"; kw_password := None;
         kw_verbose := false; kw_key := Some "abc.def";
         kw_useragent := None |} = Ok self
    /\ _credentials (api_client self) =
         {[ "HTTP_AUTHORIZATION" := "Api-Key abc.def" ]}.
Proof.
  destruct (client_authentication (users APITests.sample_db)
              "http://localhost"
              {| kw_user := Some "api_test"; kw_password := None;
                 kw_verbose := false; kw_key := Some "abc.def";
                 kw_useragent := None |}
              {| username := "api_test";
                 user_permissions :=
                   [APITests.perm "peeringdb.organization" 1] |})
    as (self & Hinit & _ & (_ & Hcred & _) & _).
  { vm_compute. reflexivity. }
  exists self. split; [exact Hinit | exact Hcred].
Defined.

(** C4, as worded, fails: an explicit url that is the empty string is
    not used unchanged. *)
Lemma request_url_empty_url_replaced :
  ~ (forall typ id u, request_url typ id (Some u) = u).
Proof. intros H. specialize (H "net" 0%Z ""). discriminate H. Qed.

(** C4, amended: without a url the path is [/api/typ/id] for a
    non-zero id and [/api/typ] for id zero, the default; a url that is
    not the empty string is used unchanged, and the empty string is
    treated as no url. *)
Theorem request_url_cases (typ : string) (id : Z) (u : string) :
  request_url typ id None =
    (if Z.eqb id 0 then "/api/" +:+ typ
     else "/api/" +:+ typ +:+ "/" +:+ str_of_int id)
  /\ request_url typ default_id None = "/api/" +:+ typ
  /\ request_url typ id (Some u) =
       (if String.eqb u "" then request_url typ id None else u)
  /\ (forall api self method params data o fnc,
        getattr_api_client (lower method) = Ok fnc ->
        exists body,
          _request api self typ id method params data o =
          let res := api (call_args self fnc (request_url typ id o) body) in
          if String.eqb (res_charset res) "utf-8"
          then Ok (DummyResponse.init_default (res_status_code res)
                                              (res_content res))
          else Raise AssertionError).
Proof.
  split; [| split; [| split]].
  - unfold request_url, truthy_int; cbn [truthy_opt_str negb].
    destruct (Z.eqb id 0); reflexivity.
  - reflexivity.
  - unfold request_url, truthy_opt_str, truthy_str; cbn [default].
    destruct (String.eqb u ""); reflexivity.
  - intros api self method params data o fnc Hfnc.
    exists (request_data data params).
    rewrite _request_eq, Hfnc. reflexivity.
Qed.

Example request_url_with_id : request_url "net" 20 None = "/api/net/20".
Proof. reflexivity. Qed.

Example request_url_without_id : request_url "fac" 0 None = "/api/fac".
Proof. reflexivity. Qed.

Example request_url_negative_id : request_url "net" (-3) None = "/api/net/-3".
Proof. reflexivity. Qed.

Example request_url_explicit :
  request_url "net" 20 (Some "/api/net?asn=63311") = "/api/net?asn=63311".
Proof. reflexivity. Qed.

(** X2: the assertion of [_request] is a real check: when the API
    answers in a charset other than utf-8, [_request] raises
    [AssertionError] and returns no response. *)
Lemma _request_asserts_charset (api : Request -> HttpResponse) (self : t)
    (typ : string) (id : Z) (method : string)
    (params data : option (gmap string json_value)) (u : option string)
    (fnc : Verb) :
  getattr_api_client (lower method) = Ok fnc ->
  res_charset (api (call_args self fnc (request_url typ id u)
                              (request_data data params))) <> "utf-8" ->
  _request api self typ id method params data u = Raise AssertionError.
Proof.
  intros Hfnc Hcs. rewrite _request_eq, Hfnc. cbn [mbind result_bind bind].
  apply String.eqb_neq in Hcs. rewrite Hcs. reflexivity.
Qed.




End ClientProperties.

(** ** The fixture *)

Section SetUpProperties.
Import Py Models APITests.
Local Open Scope list_scope.

Lemma Permission_eta (r : Permission) :
  {| namespace := namespace r; permission := permission r |} = r.
Proof. destruct r; reflexivity. Qed.

Lemma DB_eta (db : DB) :
  {| users := users db; organizations := organizations db;
     user_api_keys := user_api_keys db;
     org_api_keys := org_api_keys db |} = db.
Proof. destruct db; reflexivity. Qed.

Lemma set_permissions_same (row : OrganizationAPIKey) :
  set_permissions row (oak_permissions row) = row.
Proof. destruct row; reflexivity. Qed.


(** A row the key holds after [add_permission] was there before or is
    the one added. *)
Lemma add_permission_in (rows : list Permission) (ns : string) (p : Z)
    (r : Permission) :
  In r (add_permission rows ns p) -> In r rows \/ r = perm ns p.
Proof.
  induction rows as [| r0 rows IH]; cbn [add_permission In].
  - intros [<- | []]. right; reflexivity.
  - destruct (String.eqb (namespace r0) ns); cbn [In].
    + intros [<- | H]; [right; reflexivity | left; right; exact H].
    + intros [<- | H]; [left; left; reflexivity |].
      destruct (IH H) as [H' | H']; [left; right; exact H' | right; exact H'].
Qed.

(** The key ends up with no row that is neither its own nor the
    group's. *)
Lemma transfer_rows_in (perms rows : list Permission) (r : Permission) :
  In r (transfer_rows perms rows) -> In r rows \/ In r perms.
Proof.
  unfold transfer_rows. revert rows.
  induction perms as [| q perms IH]; intros rows; cbn [fold_left In].
  - tauto.
  - intros H. destruct (IH _ H) as [H' | H']; [| tauto].
    destruct (add_permission_in _ _ _ _ H') as [H'' | ->]; [tauto |].
    right; left. symmetry. apply Permission_eta.
Qed.


(** What the transfer loop does to the tables. *)
Lemma transfer_permissions_spec (perms : list Permission) (db : DB) (k : nat) :
  transfer_permissions db k perms =
  {| users := users db; organizations := organizations db;
     user_api_keys := user_api_keys db;
     org_api_keys :=
       alter (fun row =>
                set_permissions row (transfer_rows perms (oak_permissions row)))
             k (org_api_keys db) |}.
Proof.
  unfold transfer_permissions, transfer_rows. revert db.
  induction perms as [| q perms IH]; intros db; cbn [fold_left].
  - rewrite list_alter_id by apply set_permissions_same.
    symmetry. apply DB_eta.
  - rewrite IH. unfold key_add_permission.
    cbn [users organizations user_api_keys org_api_keys].
    rewrite list_alter_alter_eq. reflexivity.
Qed.

(** Transferring a group's rows to the key created last changes that
    key's rows and nothing else. *)
Lemma transfer_after_create (U : gmap string User)
    (O : gmap string Organization) (UK : list UserAPIKey)
    (K : list OrganizationAPIKey) (row : OrganizationAPIKey)
    (perms : list Permission) :
  transfer_permissions
    {| users := U; organizations := O; user_api_keys := UK;
       org_api_keys := K ++ [row] |} (length K) perms =
  {| users := U; organizations := O; user_api_keys := UK;
     org_api_keys :=
       K ++ [set_permissions row
               (transfer_rows perms (oak_permissions row))] |}.
Proof.
  rewrite transfer_permissions_spec.
  cbn [users organizations user_api_keys org_api_keys].
  f_equal.
  apply list_eq. intros i.
  destruct (decide (i = length K)) as [-> | Hne].
  - rewrite list_lookup_alter_eq, !list_lookup_middle by reflexivity.
    reflexivity.
  - rewrite list_lookup_alter_ne by congruence.
    destruct (decide (i < length K)%nat).
    + rewrite !lookup_app_l by assumption. reflexivity.
    + rewrite !lookup_ge_None_2; [reflexivity | |];
        rewrite length_app; cbn [length]; lia.
Qed.


Lemma Organization_get_found (db : DB) (name : string) (o : Organization) :
  organizations db !! name = Some o -> Organization_get db name = Ok o.
Proof. intros H. unfold Organization_get. rewrite H. reflexivity. Qed.



End SetUpProperties.

(* ===================================================================== *)
(** * Part III: further properties of the harness                         *)
(* ===================================================================== *)

(** ** Strings *)

Lemma append_cancel_l (s a b : string) : s +:+ a = s +:+ b -> a = b.
Proof.
  induction s as [| c s IH]; cbn [String.append]; intros H; [exact H |].
  injection H as H. exact (IH H).
Qed.

Lemma length_append (a b : string) :
  String.length (a +:+ b) = (String.length a + String.length b)%nat.
Proof.
  induction a as [| c a IH]; simpl; [reflexivity | f_equal; exact IH].
Qed.

Lemma lower_ascii_idem (c : ascii) :
  Py.lower_ascii (Py.lower_ascii c) = Py.lower_ascii c.
Proof.
  destruct c as [[] [] [] [] [] [] [] []]; vm_compute; reflexivity.
Qed.

Lemma lower_idem (s : string) : Py.lower (Py.lower s) = Py.lower s.
Proof.
  induction s as [| c s IH]; cbn [Py.lower]; [reflexivity |].
  rewrite lower_ascii_idem, IH. reflexivity.
Qed.

(** [str(n)] never prints the same digits for two integers. *)
Lemma str_of_int_inj (a b : Z) : Py.str_of_int a = Py.str_of_int b -> a = b.
Proof.
  unfold Py.str_of_int. intros H.
  assert (Hnn : forall z, Z.to_int z <> Decimal.Pos Decimal.Nil
                          /\ Z.to_int z <> Decimal.Neg Decimal.Nil).
  { intros [| p | p]; cbn; split; try discriminate;
      intros [= Hp]; exact (DecimalPos.Unsigned.to_uint_nonnil p Hp). }
  apply DecimalZ.to_int_inj.
  assert (Some (Z.to_int a) = Some (Z.to_int b)) as [= ->]; [| reflexivity].
  rewrite <- (NilZero.isi (Z.to_int a)), <- (NilZero.isi (Z.to_int b)), H
    by apply Hnn.
  reflexivity.
Qed.

(** ** More on the REST client *)

Section ClientExtras.
Import Py Models Client.



(** The statement of X2 at work: an API answering in latin-1. *)
Lemma _request_asserts_charset_witness :
  _request (fun _ => {| res_status_code := 200; res_content := "{}";
                        res_charset := "iso-8859-1" |})
    {| url := "http://localhost"; user := None; password := None;
       verbose := false; useragent := None;
       user_inst := {| username := "guest"; user_permissions := [] |};
       key := None;
       api_client :=
         force_authenticate APIClient_new
           {| username := "guest"; user_permissions := [] |} |}
    "net" 0 "GET" None None None = Raise AssertionError.
Proof.
  apply (_request_asserts_charset
           (fun _ => {| res_status_code := 200; res_content := "{}";
                        res_charset := "iso-8859-1" |})
           _ "net" 0%Z "GET" None None None GET eq_refl).
  discriminate.
Defined.

(** X3: the method name is matched regardless of case: a name and its
    lower-case form give the same outcome. *)
Theorem _request_method_case
    (api : Request -> HttpResponse) (self : t)
    (typ : string) (id : Z) (method : string)
    (params data : option (gmap string json_value)) (u : option string) :
  _request api self typ id (lower method) params data u =
  _request api self typ id method params data u.
Proof. rewrite !_request_eq, lower_idem. reflexivity. Qed.

Example lower_GET : lower "GET" = "get".
Proof. reflexivity. Qed.

Example lower_mixed : lower "DeLeTe" = "delete".
Proof. reflexivity. Qed.

(** X4: without a url, two different ids never give the same path, for
    any type: the list path [/api/typ] and the paths [/api/typ/id] of
    the single objects are all distinct. *)
Theorem request_url_id_inj (typ : string) (a b : Z) :
  a <> b -> request_url typ a None <> request_url typ b None.
Proof.
  intros Hab Heq. apply Hab. clear Hab.
  unfold request_url, truthy_int in Heq; cbn [truthy_opt_str negb] in Heq.
  assert (Hlen : forall x,
    "/api/" +:+ typ <> "/api/" +:+ typ +:+ "/" +:+ x).
  { intros x Hx. apply append_cancel_l in Hx.
    apply (f_equal String.length) in Hx.
    rewrite !length_append in Hx. simpl in Hx. lia. }
  destruct (Z.eqb a 0) eqn:Ea, (Z.eqb b 0) eqn:Eb; cbn [negb] in Heq.
  - apply Z.eqb_eq in Ea, Eb. congruence.
  - exfalso. exact (Hlen _ Heq).
  - exfalso. exact (Hlen _ (eq_sym Heq)).
  - do 3 apply append_cancel_l in Heq. exact (str_of_int_inj _ _ Heq).
Qed.

(** The statement of X4 at work. *)
Lemma request_url_id_inj_witness :
  request_url "net" 1 None <> request_url "net" 10 None.
Proof. apply (request_url_id_inj "net" 1 10). discriminate. Defined.

(** X5: the keys of the body sent are the keys of data together with
    the keys of params, so no entry of data is dropped; and merging the
    same params into the body once more changes nothing. *)
Theorem request_data_keys
    (data params : option (gmap string json_value)) :
  dom (request_data data params) =
    dom (default ∅ data) ∪ dom (default ∅ params)
  /\ request_data (Some (request_data data params)) params =
       request_data data params.
Proof.
  assert (Hmerge : forall data params : option (gmap string json_value),
    request_data data params = default ∅ params ∪ default ∅ data).
  { clear. intros data params. unfold request_data, dict_update, truthy_opt_dict.
    destruct data as [d |], params as [p |];
      cbn [default from_option negb]; unfold id;
      repeat case_bool_decide; subst; cbn [negb];
      rewrite ?(left_id_L ∅ (∪)), ?(right_id_L ∅ (∪)); reflexivity. }
  split.
  - rewrite Hmerge, dom_union_L. apply (comm_L (∪)).
  - rewrite (Hmerge (Some _)), Hmerge. cbn [default from_option]. unfold id.
    rewrite (assoc_L (∪)), (idemp_L (∪)). reflexivity.
Qed.

(** X6: the user is looked up before the key is considered, so
    [__init__] raises [DoesNotExist] when the user to set the client up
    with is missing (the one named by a non-empty [user] argument, the
    guest otherwise), with or without a key. *)
Theorem __init___user_missing
    (tbl : gmap string User) (base : string) (kwargs : Kwargs) :
  tbl !! (match kw_user kwargs with
          | Some name => if String.eqb name "" then "guest" else name
          | None => "guest"
          end) = None ->
  __init__ tbl base kwargs = Raise (DoesNotExist "User").
Proof.
  intros Hnone. unfold __init__, User_get, truthy_opt_str, truthy_str.
  revert Hnone.
  destruct (kw_user kwargs) as [name |]; cbn -[String.eqb].
  - destruct (String.eqb name ""); cbn [negb]; intros ->; reflexivity.
  - intros ->. reflexivity.
Qed.

(** The statement of X6 at work: a key does not help when the user named
    is unknown. *)
Lemma __init___user_missing_witness :
  __init__ (users APITests.sample_db) "http://localhost"
    {| kw_user := Some "nobody"; kw_password := None; kw_verbose := false;
       kw_key := Some "abc.def"; kw_useragent := None |}
  = Raise (DoesNotExist "User").
Proof.
  apply (__init___user_missing (users APITests.sample_db) "http://localhost"
           {| kw_user := Some "nobody"; kw_password := None;
              kw_verbose := false; kw_key := Some "abc.def";
              kw_useragent := None |}).
  vm_compute. reflexivity.
Defined.

End ClientExtras.

(** ** More on the fixture *)

Section SetUpExtras.
Import Py Models APITests.
Local Open Scope list_scope.

Lemma rest_client_found (db : DB) (base secret name : string)
    (pw : option string) (who : User) :
  users db !! name = Some who ->
  String.eqb name "" = false ->
  exists c,
    rest_client db base secret (Some name, pw) = Ok c
    /\ keyed_client c name who secret.
Proof.
  intros Hwho Hname. unfold rest_client, Client.__init__, User_get.
  cbn [Client.kw_user Client.kw_key fst snd truthy_opt_str default
       from_option id].
  unfold truthy_str. rewrite Hname. cbn [negb]. rewrite Hwho.
  cbn [mbind result_bind bind]. eexists. split; [reflexivity |].
  repeat split.
Qed.

Lemma rest_client_missing (db : DB) (base secret name : string)
    (pw : option string) :
  users db !! name = None ->
  String.eqb name "" = false ->
  rest_client db base secret (Some name, pw) = Raise (DoesNotExist "User").
Proof.
  intros Hwho Hname. unfold rest_client, Client.__init__, User_get.
  cbn [Client.kw_user Client.kw_key fst snd truthy_opt_str default
       from_option id].
  unfold truthy_str. rewrite Hname. cbn [negb]. rewrite Hwho. reflexivity.
Qed.

Lemma Organization_get_missing (db : DB) (name : string) :
  organizations db !! name = None ->
  Organization_get db name = Raise (DoesNotExist "Organization").
Proof. intros H. unfold Organization_get. rewrite H. reflexivity. Qed.

(** One step of [setUp]: the next lookup, client or transfer. *)
Ltac setUp_step :=
  cbn [mbind result_bind bind];
  match goal with
  | H : users _ !! ?n = Some ?u
    |- context [rest_client ?d ?b ?k (Some ?n, ?pw)] =>
      let c := fresh "c" in
      let Hc := fresh "Hc" in
      let Hk := fresh "Hk" in
      destruct (rest_client_found d b k n pw u H eq_refl) as (c & Hc & Hk);
      rewrite Hc
  | H : users _ !! ?n = None
    |- context [rest_client ?d ?b ?k (Some ?n, ?pw)] =>
      rewrite (rest_client_missing d b k n pw H eq_refl)
  | H : organizations _ !! ?n = Some ?o
    |- context [Organization_get ?d ?n] =>
      rewrite (Organization_get_found d n o H)
  | H : organizations _ !! ?n = None
    |- context [Organization_get ?d ?n] =>
      rewrite (Organization_get_missing d n H)
  | |- context [OrganizationAPIKey_create_key] =>
      unfold OrganizationAPIKey_create_key at 1;
      cbn [org_api_keys user_api_keys users organizations];
      rewrite transfer_after_create
  end.

(** [setUp], case by case: it raises at the first row it does not find,
    and otherwise returns the tables with one user key and two
    organization keys added. *)
Lemma setUp_cases (base : string) (generate_key : nat -> string) (db : DB) :
  match users db !! "api_test" with
  | None => setUp base generate_key db = Raise (DoesNotExist "User")
  | Some u1 =>
  match organizations db !! "API Test Organization RW" with
  | None => setUp base generate_key db = Raise (DoesNotExist "Organization")
  | Some rw_org =>
  match users db !! "api_test_org_admin" with
  | None => setUp base generate_key db = Raise (DoesNotExist "User")
  | Some u2 =>
  match organizations db !! "API Test Organization R" with
  | None => setUp base generate_key db = Raise (DoesNotExist "Organization")
  | Some r_org =>
  match users db !! "api_test_org_member" with
  | None => setUp base generate_key db = Raise (DoesNotExist "User")
  | Some u3 =>
      let n := keys_created db in
      let uk := {| uak_name := "User api key"; uak_user := username u1;
                   uak_key := generate_key n |} in
      let rw := {| oak_name := "test key"; oak_org := org_name rw_org;
                   oak_email := "test@localhost";
                   oak_key := generate_key (n + 1);
                   oak_permissions :=
                     transfer_rows
                       (grainy_permissions (admin_usergroup rw_org)) [] |} in
      let r := {| oak_name := "test key"; oak_org := org_name r_org;
                  oak_email := "test@localhost";
                  oak_key := generate_key (n + 2);
                  oak_permissions :=
                    transfer_rows
                      (grainy_permissions (usergroup r_org)) [] |} in
      exists c1 c2 c3,
        setUp base generate_key db =
          Ok ({| users := users db; organizations := organizations db;
                 user_api_keys := user_api_keys db ++ [uk];
                 org_api_keys := org_api_keys db ++ [rw; r] |},
              {| db_user := c1; db_org_admin := c2; db_org_member := c3;
                 rw_api_key := length (org_api_keys db);
                 r_api_key := S (length (org_api_keys db)) |})
        /\ keyed_client c1 "api_test" u1 (generate_key n)
        /\ keyed_client c2 "api_test_org_admin" u2 (generate_key (n + 1))
        /\ keyed_client c3 "api_test_org_member" u3 (generate_key (n + 2))
  end end end end end.
Proof.
  destruct (users db !! "api_test") as [u1 |] eqn:Hu1.
  2: { unfold setUp, USER. cbn [fst default from_option id].
       unfold User_get. rewrite Hu1. reflexivity. }
  assert (Hstart : forall (B : Type) (rest : User -> result B),
    (User_get (users db) (default "" (fst USER)) ≫= rest) = rest u1).
  { intros B rest. unfold USER. cbn [fst default from_option id].
    unfold User_get. rewrite Hu1. reflexivity. }
  destruct (organizations db !! "API Test Organization RW")
    as [rw_org |] eqn:Hrw.
  2: { unfold setUp. rewrite Hstart.
       unfold UserAPIKey_create_key, USER, USER_ORG_ADMIN, USER_ORG_MEMBER.
       do 2 setUp_step. reflexivity. }
  destruct (users db !! "api_test_org_admin") as [u2 |] eqn:Hu2.
  2: { unfold setUp. rewrite Hstart.
       unfold UserAPIKey_create_key, USER, USER_ORG_ADMIN, USER_ORG_MEMBER.
       do 4 setUp_step. reflexivity. }
  destruct (organizations db !! "API Test Organization R")
    as [r_org |] eqn:Hr.
  2: { unfold setUp. rewrite Hstart.
       unfold UserAPIKey_create_key, USER, USER_ORG_ADMIN, USER_ORG_MEMBER.
       do 5 setUp_step. reflexivity. }
  destruct (users db !! "api_test_org_member") as [u3 |] eqn:Hu3.
  2: { unfold setUp. rewrite Hstart.
       unfold UserAPIKey_create_key, USER, USER_ORG_ADMIN, USER_ORG_MEMBER.
       do 7 setUp_step. reflexivity. }
  cbn zeta. unfold setUp. rewrite Hstart.
  unfold UserAPIKey_create_key, USER, USER_ORG_ADMIN, USER_ORG_MEMBER.
  do 7 setUp_step. cbn [mbind result_bind bind].
  unfold keys_created in *.
  cbn [user_api_keys org_api_keys set_permissions oak_name oak_org oak_email
       oak_key oak_permissions] in *.
  rewrite !length_app in *. cbn [length] in *.
  replace (length (user_api_keys db) + 1 + (length (org_api_keys db) + 1))%nat
    with (length (user_api_keys db) + length (org_api_keys db) + 2)%nat
    in * by lia.
  replace (length (user_api_keys db) + 1 + length (org_api_keys db))%nat
    with (length (user_api_keys db) + length (org_api_keys db) + 1)%nat
    in * by lia.
  replace (length (org_api_keys db) + 1)%nat
    with (S (length (org_api_keys db))) by lia.
  rewrite <- app_assoc. cbn [app].
  eexists _, _, _. split; [reflexivity |].
  split; [assumption |]. split; assumption.
Qed.






Lemma keyed_client_auth (c : Client.t) (name : string) (who : User)
    (secret : string) :
  keyed_client c name who secret ->
  Client.key_auth c = true /\ Client.session_auth c = false.
Proof.
  intros (_ & _ & _ & Hcred & Hforce).
  unfold Client.key_auth, Client.session_auth. rewrite Hcred, Hforce. split.
  - apply bool_decide_eq_true_2. rewrite lookup_singleton_eq. eauto.
  - apply bool_decide_eq_false_2. intros [? [=]].
Qed.

(** X10: when [setUp] returns, each of its three clients acts for its own
    test user and authenticates by key and by nothing else: its only
    credential is the header [Api-Key] followed by the secret of the key
    created for it (in order of creation the user key, the RW key and the
    R key), and no user is forced on it. *)
Theorem setUp_clients (base : string) (generate_key : nat -> string)
    (db db' : DB) (fx : Fixture) :
  setUp base generate_key db = Ok (db', fx) ->
  exists u1 u2 u3,
    users db !! "api_test" = Some u1
    /\ users db !! "api_test_org_admin" = Some u2
    /\ users db !! "api_test_org_member" = Some u3
    /\ keyed_client (db_user fx) "api_test" u1
         (generate_key (keys_created db))
    /\ keyed_client (db_org_admin fx) "api_test_org_admin" u2
         (generate_key (keys_created db + 1))
    /\ keyed_client (db_org_member fx) "api_test_org_member" u3
         (generate_key (keys_created db + 2))
    /\ Forall (fun c => Client.key_auth c = true
                        /\ Client.session_auth c = false)
         [db_user fx; db_org_admin fx; db_org_member fx]
    /\ Client.key (db_org_admin fx) =
         oak_key <$> org_api_keys db' !! rw_api_key fx
    /\ Client.key (db_org_member fx) =
         oak_key <$> org_api_keys db' !! r_api_key fx.
Proof.
  intros Hrun.
  pose proof (setUp_cases base generate_key db) as H.
  destruct (users db !! "api_test") as [u1 |]; [| congruence].
  destruct (organizations db !! "API Test Organization RW") as [rw_org |];
    [| congruence].
  destruct (users db !! "api_test_org_admin") as [u2 |]; [| congruence].
  destruct (organizations db !! "API Test Organization R") as [r_org |];
    [| congruence].
  destruct (users db !! "api_test_org_member") as [u3 |]; [| congruence].
  destruct H as (c1 & c2 & c3 & Hrun' & H1 & H2 & H3).
  rewrite Hrun in Hrun'. injection Hrun' as -> ->.
  exists u1, u2, u3. cbn [db_user db_org_admin db_org_member].
  do 3 (split; [reflexivity |]).
  do 3 (split; [assumption |]).
  split.
  - repeat constructor; eauto using keyed_client_auth;
      eapply keyed_client_auth; eassumption.
  - cbn [rw_api_key r_api_key org_api_keys].
    rewrite !lookup_app_r by lia.
    rewrite Nat.sub_diag.
    replace (S (length (org_api_keys db)) - length (org_api_keys db))%nat
      with 1%nat by lia.
    cbn [lookup list_lookup fmap option_fmap option_map oak_key].
    destruct H2 as (_ & _ & -> & _), H3 as (_ & _ & -> & _). split; reflexivity.
Qed.

(** The statement of X10 at work on the sample database. *)
Lemma setUp_clients_witness :
  exists db' fx,
    setUp "http://localhost" sample_generate_key sample_db = Ok (db', fx)
    /\ Client.key (db_user fx) = Some "key0"
    /\ Client.key (db_org_admin fx) = Some "key1"
    /\ Client.key (db_org_member fx) = Some "key2".
Proof.
  destruct (setUp "http://localhost" sample_generate_key sample_db)
    as [[db' fx] | e] eqn:Hrun; [| vm_compute in Hrun; discriminate Hrun].
  exists db', fx. split; [reflexivity |].
  destruct (setUp_clients _ _ _ _ _ Hrun)
    as (u1 & u2 & u3 & _ & _ & _ & (_ & _ & -> & _) & (_ & _ & -> & _)
        & (_ & _ & -> & _) & _).
  repeat split.
Defined.

(** The namespaces a key has rows for after [add_permission]. *)
Lemma add_permission_namespaces (rows : list Permission) (ns : string)
    (p : Z) (n : string) :
  In n (map namespace (add_permission rows ns p)) <->
  n = ns \/ In n (map namespace rows).
Proof.
  induction rows as [| r rows IH]; cbn [add_permission map In namespace].
  - intuition congruence.
  - destruct (String.eqb_spec (namespace r) ns) as [Heq | Hne];
      cbn [map In namespace].
    + rewrite Heq. intuition congruence.
    + rewrite IH. intuition congruence.
Qed.

Lemma transfer_rows_namespaces (perms rows : list Permission) (n : string) :
  In n (map namespace (transfer_rows perms rows)) <->
  In n (map namespace rows) \/ In n (map namespace perms).
Proof.
  unfold transfer_rows. revert rows.
  induction perms as [| q perms IH]; intros rows; cbn [fold_left map In].
  - tauto.
  - rewrite IH, add_permission_namespaces. intuition congruence.
Qed.

(** X11: the transfer loops write to the one key they are given: the
    users, the organizations, the user keys, the number of organization
    keys and every other organization key stay as they are, the key
    itself changes in its permission rows only, and with no row to
    transfer nothing changes at all. *)
Theorem transfer_permissions_frame (db : DB) (k : nat)
    (perms : list Permission) :
  users (transfer_permissions db k perms) = users db
  /\ organizations (transfer_permissions db k perms) = organizations db
  /\ user_api_keys (transfer_permissions db k perms) = user_api_keys db
  /\ length (org_api_keys (transfer_permissions db k perms)) =
       length (org_api_keys db)
  /\ (forall k', k' <> k ->
        org_api_keys (transfer_permissions db k perms) !! k' =
        org_api_keys db !! k')
  /\ org_api_keys (transfer_permissions db k perms) !! k =
       (fun row =>
          set_permissions row (transfer_rows perms (oak_permissions row)))
       <$> org_api_keys db !! k
  /\ transfer_permissions db k [] = db.
Proof.
  rewrite transfer_permissions_spec.
  cbn [users organizations user_api_keys org_api_keys].
  do 3 (split; [reflexivity |]).
  split; [apply length_alter |].
  split; [intros k' Hk'; apply list_lookup_alter_ne; congruence |].
  split; [apply list_lookup_alter_eq | reflexivity].
Qed.

(** X12: also when a group has several rows for one namespace, a key
    [setUp] has filled holds no row that is not a row of its group (the
    admin group of the RW organization for the RW key, the user group of
    the R organization for the R key), and it has a row for exactly the
    namespaces the group has rows for. *)
Theorem setUp_key_rows_from_group (base : string)
    (generate_key : nat -> string) (db db' : DB) (fx : Fixture) :
  setUp base generate_key db = Ok (db', fx) ->
  exists rw_org r_org rows_rw rows_r,
    organizations db !! "API Test Organization RW" = Some rw_org
    /\ organizations db !! "API Test Organization R" = Some r_org
    /\ key_permissions db' (rw_api_key fx) = Some rows_rw
    /\ key_permissions db' (r_api_key fx) = Some rows_r
    /\ (forall x, In x rows_rw ->
                  In x (grainy_permissions (admin_usergroup rw_org)))
    /\ (forall n, In n (map namespace rows_rw) <->
                  In n (map namespace
                          (grainy_permissions (admin_usergroup rw_org))))
    /\ (forall x, In x rows_r ->
                  In x (grainy_permissions (usergroup r_org)))
    /\ (forall n, In n (map namespace rows_r) <->
                  In n (map namespace (grainy_permissions (usergroup r_org)))).
Proof.
  intros Hrun.
  pose proof (setUp_cases base generate_key db) as H.
  destruct (users db !! "api_test") as [u1 |]; [| congruence].
  destruct (organizations db !! "API Test Organization RW") as [rw_org |];
    [| congruence].
  destruct (users db !! "api_test_org_admin") as [u2 |]; [| congruence].
  destruct (organizations db !! "API Test Organization R") as [r_org |];
    [| congruence].
  destruct (users db !! "api_test_org_member") as [u3 |]; [| congruence].
  destruct H as (c1 & c2 & c3 & Hrun' & _).
  rewrite Hrun in Hrun'. injection Hrun' as -> ->.
  exists rw_org, r_org. eexists _, _.
  do 2 (split; [reflexivity |]).
  unfold key_permissions. cbn [rw_api_key r_api_key org_api_keys].
  rewrite !lookup_app_r by lia. rewrite Nat.sub_diag.
  replace (S (length (org_api_keys db)) - length (org_api_keys db))%nat
    with 1%nat by lia.
  cbn [lookup list_lookup fmap option_fmap option_map oak_permissions].
  do 2 (split; [reflexivity |]).
  split; [| split; [| split]].
  - intros x Hx. apply transfer_rows_in in Hx as [[] | Hx]. exact Hx.
  - intros n. rewrite transfer_rows_namespaces. cbn [map In]. tauto.
  - intros x Hx. apply transfer_rows_in in Hx as [[] | Hx]. exact Hx.
  - intros n. rewrite transfer_rows_namespaces. cbn [map In]. tauto.
Qed.

(** The statement of X12 at work on the sample database. *)
Lemma setUp_key_rows_from_group_witness :
  exists db' fx rows_rw,
    setUp "http://localhost" sample_generate_key sample_db = Ok (db', fx)
    /\ key_permissions db' (rw_api_key fx) = Some rows_rw
    /\ forall x, In x rows_rw ->
         In x [perm "peeringdb.organization.1" 15;
               perm "peeringdb.manage_organization.1" 15;
               perm "peeringdb.organization.1.network.?.poc_set.private" 15].
Proof.
  destruct (setUp "http://localhost" sample_generate_key sample_db)
    as [[db' fx] | e] eqn:Hrun; [| vm_compute in Hrun; discriminate Hrun].
  destruct (setUp_key_rows_from_group _ _ _ _ _ Hrun)
    as (rw_org & r_org & rows_rw & rows_r & Hrw & _ & Hk & _ & Hin & _).
  exists db', fx, rows_rw. split; [reflexivity |]. split; [exact Hk |].
  assert (Some rw_org = organizations sample_db !! "API Test Organization RW")
    as Hrw' by (symmetry; exact Hrw).
  vm_compute in Hrw'. injection Hrw' as ->. exact Hin.
Defined.

End SetUpExtras.

(** ** The groups of [setUpTestData] *)

Section SetUpTestDataExtras.
Import Py Models APITests.
Local Open Scope list_scope.

(** [str(n)] starts with a digit or a minus sign, never with a star. *)
Lemma str_of_int_no_star (z : Z) (s : string) :
  str_of_int z <> String "*" s.
Proof.
  unfold str_of_int.
  destruct (Z.to_int z) as [d | d]; destruct d; cbn; discriminate.
Qed.

(** X13: whatever the id [SUGGEST_ENTITY_ORG] is, [setUpTestData] gives
    neither group two rows for one namespace; every row of the guest
    group grants read (0x01) only and is a row of the user group as
    well; the user group grants read only, except create (0x04) on the
    namespace of the organization [SUGGEST_ENTITY_ORG]; and the guest
    user is the one member of the guest group. *)
Theorem setUpTestData_groups_rows (SUGGEST_ENTITY_ORG : Z) :
  let td := setUpTestData_groups SUGGEST_ENTITY_ORG in
  List.NoDup (map namespace (grainy_permissions (guest_group td)))
  /\ List.NoDup (map namespace (grainy_permissions (user_group td)))
  /\ (forall x, In x (grainy_permissions (guest_group td)) ->
                permission x = 1%Z
                /\ In x (grainy_permissions (user_group td)))
  /\ (forall x, In x (grainy_permissions (user_group td)) ->
                permission x = 1%Z
                \/ x = perm ("peeringdb.organization."
                             +:+ str_of_int SUGGEST_ENTITY_ORG) 4)
  /\ In (perm ("peeringdb.organization."
               +:+ str_of_int SUGGEST_ENTITY_ORG) 4)
        (grainy_permissions (user_group td))
  /\ group_name (guest_group td) = "guest"
  /\ group_name (user_group td) = "user"
  /\ guest_group_user_set td = [guest_user td]
  /\ username (guest_user td) = "guest".
Proof.
  cbn zeta. unfold setUpTestData_groups, GroupPermission_create, Group_create.
  cbn [guest_group user_group guest_user guest_group_user_set
       grainy_permissions group_name app map namespace username].
  split; [| split; [| split; [| split; [| split]]]].
  - repeat constructor; cbn [In]; intuition discriminate.
  - repeat constructor; cbn [In]; intros H;
      repeat (destruct H as [H | H]; [| try contradiction]);
      try contradiction; cbv [String.append] in H; simplify_eq;
      try (match goal with
           | H : _ = str_of_int _ |- _ =>
               exact (str_of_int_no_star _ _ (eq_sym H))
           | H : str_of_int _ = _ |- _ =>
               exact (str_of_int_no_star _ _ H)
           end).
  - cbn [In]. intros x [<- | [<- | []]]; cbn [permission]; split;
      try reflexivity; tauto.
  - cbn [In]. unfold perm.
    intros x [<- | [<- | [<- | [<- | [<- | []]]]]]; cbn [permission]; tauto.
  - cbn [In]. unfold perm. tauto.
  - repeat split.
Qed.

End SetUpTestDataExtras.

(** ** The fixture's clients at work *)

Section FixtureRequests.
Import Py Models APITests.
Local Open Scope list_scope.

(** X14: every request a client of [setUp] issues carries the secret of
    the key created for it and no forced user: the requests of
    [db_org_admin] carry the secret of the RW key as stored in the
    database, those of [db_org_member] the secret of the R key, and
    those of [db_user] the secret of the user key. *)
Theorem setUp_clients_requests (base : string)
    (generate_key : nat -> string) (db db' : DB) (fx : Fixture)
    (fnc : Client.Verb) (path : string) (body : gmap string json_value) :
  setUp base generate_key db = Ok (db', fx) ->
  Some (Client.rq_extra (Client.call_args (db_org_admin fx) fnc path body)) =
    (fun row => {[ "HTTP_AUTHORIZATION" := "Api-Key " +:+ oak_key row ]})
    <$> org_api_keys db' !! rw_api_key fx
  /\ Some (Client.rq_extra (Client.call_args (db_org_member fx) fnc path body)) =
       (fun row => {[ "HTTP_AUTHORIZATION" := "Api-Key " +:+ oak_key row ]})
       <$> org_api_keys db' !! r_api_key fx
  /\ Some (Client.rq_extra (Client.call_args (db_user fx) fnc path body)) =
       (fun row => {[ "HTTP_AUTHORIZATION" := "Api-Key " +:+ uak_key row ]})
       <$> user_api_keys db' !! length (user_api_keys db)
  /\ Forall (fun c =>
               Client.rq_force_user (Client.call_args c fnc path body) = None)
       [db_user fx; db_org_admin fx; db_org_member fx].
Proof.
  intros Hrun.
  pose proof (setUp_cases base generate_key db) as H.
  destruct (users db !! "api_test") as [u1 |]; [| congruence].
  destruct (organizations db !! "API Test Organization RW") as [rw_org |];
    [| congruence].
  destruct (users db !! "api_test_org_admin") as [u2 |]; [| congruence].
  destruct (organizations db !! "API Test Organization R") as [r_org |];
    [| congruence].
  destruct (users db !! "api_test_org_member") as [u3 |]; [| congruence].
  destruct H as (c1 & c2 & c3 & Hrun'
                 & (_ & _ & _ & Hc1 & Hf1)
                 & (_ & _ & _ & Hc2 & Hf2)
                 & (_ & _ & _ & Hc3 & Hf3)).
  rewrite Hrun in Hrun'. injection Hrun' as -> ->.
  unfold Client.call_args.
  cbn [Client.rq_extra Client.rq_force_user db_user db_org_admin
       db_org_member rw_api_key r_api_key org_api_keys user_api_keys].
  rewrite Hc1, Hc2, Hc3.
  rewrite !lookup_app_r by lia. rewrite !Nat.sub_diag.
  replace (S (length (org_api_keys db)) - length (org_api_keys db))%nat
    with 1%nat by lia.
  cbn [lookup list_lookup fmap option_fmap option_map oak_key uak_key].
  do 3 (split; [reflexivity |]).
  repeat constructor; cbn [Client.rq_force_user]; assumption.
Qed.

(** The statement of X14 at work on the sample database. *)
Lemma setUp_clients_requests_witness :
  exists db' fx,
    setUp "http://localhost" sample_generate_key sample_db = Ok (db', fx)
    /\ Client.rq_force_user
         (Client.call_args (db_org_admin fx) Client.GET "/api/net" ∅) = None.
Proof.
  destruct (setUp "http://localhost" sample_generate_key sample_db)
    as [[db' fx] | e] eqn:Hrun; [| vm_compute in Hrun; discriminate Hrun].
  exists db', fx. split; [reflexivity |].
  destruct (setUp_clients_requests _ _ _ _ _ Client.GET "/api/net" ∅ Hrun)
    as (_ & _ & _ & Hforce).
  inversion Hforce as [| ? ? _ Hrest]. inversion Hrest as [| ? ? Hadmin _].
  exact Hadmin.
Defined.

End FixtureRequests.
